(** * ctrl_notify: the inotify session of [lsst.ctrl.notify.notify]

    A shallow embedding of the class [Notify] (notify.py): the two
    dictionaries [paths] and [watches], [addWatch], [rmWatch] and
    [readEvent], together with the Python library functions they call
    ([bytes.decode], [str.encode], [os.path.join], [select.select],
    the buffered reader's [read] and [readinto]). *)

From Stdlib Require Import ZArith NArith List Ascii String Strings.Byte Lia.
From stdpp Require Import base option list gmap.

Open Scope Z_scope.

(** ** Python values *)

(** A Python [str] is a sequence of Unicode code points. *)
Abbreviation pystr := (list N).

(** An ASCII literal as a [str] and as a [bytes] object. *)
Definition py (s : string) : pystr :=
  map (fun a => N_of_ascii a) (list_ascii_of_string s).

Definition pybytes (s : string) : list byte := list_byte_of_string s.

(** What a slot of [self.paths] holds: [addWatch] stores a [str], and
    [rmWatch] tests the popped value against [None]. *)
Inductive pathval : Type :=
  | PyNone
  | PyStr (p : pystr).

(** The exceptions that can leave the three methods. *)
Inductive exn : Type :=
  | Exception (msg : string)          (* raise Exception("...") in rmWatch *)
  | KeyError (wd : Z)                 (* self.paths[event.wd] *)
  | TypeError                         (* os.path.join(None, name) *)
  | ValueError                        (* select with a negative timeout *)
  | UnicodeDecodeError                (* bytes.decode('utf-8') *)
  | UnicodeEncodeError                (* str.encode('utf-8') *)
  | WatchRegistrationError (cause : string).

(** How a call ends: with a value, with an exception, or never (a
    [select] without timeout on a channel that stays silent). *)
Inductive outcome (A : Type) : Type :=
  | Returns (a : A)
  | Raises (e : exn)
  | BlocksForever.
Arguments Returns {A} a.
Arguments Raises {A} e.
Arguments BlocksForever {A}.

(** ** The kernel collaborator *)

(** Modelled from the spec: the module [lsst.ctrl.notify.inotify]
    ([inotify_add_watch], [inotify_rm_watch]) is not part of the sources.
    Its add-watch returns a watch identifier or fails with a
    [WatchRegistrationError] carrying a cause; its remove-watch returns
    a status and does not raise on a status failure.  The kernel is
    stateful, so every call of the session is run against the behaviour
    the kernel shows at that moment. *)
Inductive add_result : Type :=
  | AddOk (watch : Z)
  | AddFail (cause : string).

Record Kernel : Type := {
  inotify_add_watch : Z -> list byte -> Z -> add_result;
  inotify_rm_watch : Z -> Z -> Z
}.

(** ** The session object *)

Record Notify : Type := mkNotify {
  fd : Z;
  filebuf : list byte;                (* bytes the reader has not consumed *)
  paths : gmap Z pathval;             (* watch -> path *)
  watches : gmap pystr Z              (* path -> watch *)
}.

(** [__init__]: [fd] is what [inotify_init] returned, [stream] the
    bytes readable through [os.fdopen(fd, "rb")]. *)
Definition Notify_init (fd0 : Z) (stream : list byte) : Notify :=
  mkNotify fd0 stream ∅ ∅.

Definition set_filebuf (self : Notify) (b : list byte) : Notify :=
  mkNotify (fd self) b (paths self) (watches self).

(** ** UTF-8 (strict, as [str.encode('utf-8')] and [bytes.decode('utf-8')]) *)

Definition byte_of_N (n : N) : byte :=
  match Byte.of_N n with Some b => b | None => x00 end.

Definition is_surrogate (c : N) : bool :=
  ((55296 <=? c) && (c <=? 57343))%N.

Definition encode_point (c : N) : option (list byte) :=
  if (c <? 128)%N then Some [byte_of_N c]
  else if (c <? 2048)%N then
    Some [byte_of_N (192 + c / 64); byte_of_N (128 + c mod 64)]
  else if is_surrogate c then None
  else if (c <? 65536)%N then
    Some [byte_of_N (224 + c / 4096); byte_of_N (128 + (c / 64) mod 64);
          byte_of_N (128 + c mod 64)]
  else if (c <? 1114112)%N then
    Some [byte_of_N (240 + c / 262144); byte_of_N (128 + (c / 4096) mod 64);
          byte_of_N (128 + (c / 64) mod 64); byte_of_N (128 + c mod 64)]
  else None.

Fixpoint utf8_encode (s : pystr) : option (list byte) :=
  match s with
  | [] => Some []
  | c :: s' =>
      match encode_point c, utf8_encode s' with
      | Some b, Some bs => Some (b ++ bs)
      | _, _ => None
      end
  end.

(** A continuation byte [10xxxxxx] whose value lies in [lo, hi]. *)
Definition cont (lo hi : N) (b : byte) : option N :=
  let n := Byte.to_N b in
  if ((lo <=? n) && (n <=? hi))%N then Some (n - 128)%N else None.

Fixpoint utf8_decode (bs : list byte) : option pystr :=
  match bs with
  | [] => Some []
  | b1 :: t1 =>
      let n1 := Byte.to_N b1 in
      if (n1 <? 128)%N then
        match utf8_decode t1 with Some s => Some (n1 :: s) | None => None end
      else if ((194 <=? n1) && (n1 <=? 223))%N then
        match t1 with
        | b2 :: t2 =>
            match cont 128 191 b2, utf8_decode t2 with
            | Some c2, Some s => Some (((n1 - 192) * 64 + c2)%N :: s)
            | _, _ => None
            end
        | _ => None
        end
      else if ((224 <=? n1) && (n1 <=? 239))%N then
        match t1 with
        | b2 :: b3 :: t3 =>
            let lo := if (n1 =? 224)%N then 160%N else 128%N in
            let hi := if (n1 =? 237)%N then 159%N else 191%N in
            match cont lo hi b2, cont 128 191 b3, utf8_decode t3 with
            | Some c2, Some c3, Some s =>
                Some (((n1 - 224) * 4096 + c2 * 64 + c3)%N :: s)
            | _, _, _ => None
            end
        | _ => None
        end
      else if ((240 <=? n1) && (n1 <=? 244))%N then
        match t1 with
        | b2 :: b3 :: b4 :: t4 =>
            let lo := if (n1 =? 240)%N then 144%N else 128%N in
            let hi := if (n1 =? 244)%N then 143%N else 191%N in
            match cont lo hi b2, cont 128 191 b3, cont 128 191 b4,
                  utf8_decode t4 with
            | Some c2, Some c3, Some c4, Some s =>
                Some (((n1 - 240) * 262144 + c2 * 4096 + c3 * 64 + c4)%N :: s)
            | _, _, _, _ => None
            end
        | _ => None
        end
      else None
  end.

(** ** [os.path.join(a, b)] of posixpath, for one component [b] *)

Definition sep : N := 47.

Definition startswith_sep (s : pystr) : bool :=
  match s with
  | c :: _ => (c =? sep)%N
  | [] => false
  end.

Definition endswith_sep (s : pystr) : bool :=
  match last s with
  | Some c => (c =? sep)%N
  | None => false
  end.

Definition path_join (a b : pystr) : pystr :=
  if startswith_sep b then b
  else if match a with [] => true | _ => endswith_sep a end then a ++ b
  else a ++ sep :: b.

(** ** [addWatch] and [rmWatch] *)

Definition addWatch (K : Kernel) (self : Notify) (path : pystr) (mask : Z)
  : outcome unit * Notify :=
  match utf8_encode path with
  | None => (Raises UnicodeEncodeError, self)
  | Some encoded =>
      match inotify_add_watch K (fd self) encoded mask with
      | AddFail cause => (Raises (WatchRegistrationError cause), self)
      | AddOk watch =>
          (Returns tt,
           mkNotify (fd self) (filebuf self)
                    (<[watch := PyStr path]> (paths self))
                    (<[path := watch]> (watches self)))
      end
  end.

Definition rmWatch (K : Kernel) (self : Notify) (path : pystr)
  : outcome Z * Notify :=
  match watches self !! path with
  | None =>
      (Raises (Exception "watch descriptor not found for that path"), self)
  | Some watch =>
      let watches' := delete path (watches self) in
      let ret := inotify_rm_watch K (fd self) watch in
      match paths self !! watch with
      | Some p =>
          let self' :=
            mkNotify (fd self) (filebuf self) (delete watch (paths self))
                     watches' in
          match p with
          | PyNone => (Returns (-1), self')
          | PyStr _ => (Returns ret, self')
          end
      | None =>
          (Returns ret,
           mkNotify (fd self) (filebuf self) (paths self) watches')
      end
  end.

(** ** Event records *)

(** Modelled from the spec: the classes [_InotifyEvent] and
    [InotifyEvent] are declared in inotifyEvent.py, which is not part of
    the sources.  The raw header has four fixed-size fields: the watch
    identifier, the mask, the cookie and the length of the name; the
    decoded event is built from the header fields and an optional path.
    [Event.t] holds the two arguments of the call [InotifyEvent(event,
    path)] as [readEvent] gives them.  The sizes are those of the
    kernel's inotify_event:
    a C [int] and three unsigned 32-bit integers, 16 bytes, here in
    little-endian order. *)
Module Event.
Record raw : Type := Raw {
  wd : Z;
  mask : Z;
  cookie : Z;
  length : Z
}.

Record t : Type := Make {
  header : raw;
  name : option pystr
}.
End Event.



Definition header_size : nat := 16.

Definition le32 (b0 b1 b2 b3 : byte) : Z :=
  Z.of_N (Byte.to_N b0) + 256 * Z.of_N (Byte.to_N b1)
  + 65536 * Z.of_N (Byte.to_N b2) + 16777216 * Z.of_N (Byte.to_N b3).

Definition c_int (u : Z) : Z :=
  if u <? 2147483648 then u else u - 4294967296.

Definition field (mem : list byte) (i : nat) : Z :=
  le32 (nth i mem x00) (nth (i + 1) mem x00)
       (nth (i + 2) mem x00) (nth (i + 3) mem x00).

Definition unpack (mem : list byte) : Event.raw :=
  Event.Raw (c_int (field mem 0)) (field mem 4) (field mem 8) (field mem 12).

(** ** The buffered reader *)

(** [filebuf.readinto(event)] on a zeroed structure: the number of
    bytes obtained, the memory of the structure, the bytes left. *)
Definition readinto (buf : list byte) : nat * list byte * list byte :=
  let got := take header_size buf in
  (List.length got,
   got ++ replicate (header_size - List.length got) x00,
   drop header_size buf).

(** [filebuf.read(n)]: up to [n] bytes, fewer at the end of the data. *)
Definition read (n : nat) (buf : list byte) : list byte * list byte :=
  (take n buf, drop n buf).

(** ** [select.select([fd], [], [], timeout)] *)

Inductive pytimeout : Type :=
  | TNone                 (* None: wait until the descriptor is readable *)
  | TSecs (s : Z).        (* a number of seconds *)

(** [ready_in] is the time after which the descriptor becomes readable
    ([Some 0]: it already is, [None]: it never does).  The result tells
    whether the list of readable descriptors is non-empty. *)
Definition select (ready_in : option N) (timeout : pytimeout) : outcome bool :=
  match timeout with
  | TNone =>
      match ready_in with
      | Some _ => Returns true
      | None => BlocksForever
      end
  | TSecs s =>
      if s <? 0 then Raises ValueError
      else match ready_in with
           | Some d => Returns (Z.of_N d <=? s)
           | None => Returns false
           end
  end.

(** ** [readEvent] *)

Definition readEvent (self : Notify) (ready_in : option N)
    (timeout : pytimeout) : outcome (option Event.t) * Notify :=
  match select ready_in timeout with
  | Raises e => (Raises e, self)
  | BlocksForever => (BlocksForever, self)
  | Returns false => (Returns None, self)
  | Returns true =>
      let '(val, mem, rest) := readinto (filebuf self) in
      if (val =? 0)%nat then (Returns None, set_filebuf self rest)
      else
        let event := unpack mem in
        if Event.length event >? 0 then
          let '(data, rest') := read (Z.to_nat (Event.length event)) rest in
          let self' := set_filebuf self rest' in
          match utf8_decode data with
          | None => (Raises UnicodeDecodeError, self')
          | Some name =>
              match paths self !! Event.wd event with
              | None => (Raises (KeyError (Event.wd event)), self')
              | Some PyNone => (Raises TypeError, self')
              | Some (PyStr path) =>
                  (Returns (Some (Event.Make event
                                    (Some (path_join path name)))), self')
              end
          end
        else (Returns (Some (Event.Make event None)), set_filebuf self rest)
  end.

(** The signature is [readEvent(self, timeout=0)]: a call without the
    argument passes [0]. *)
Definition timeout_default : pytimeout := TSecs 0.

Definition readEvent_noarg (self : Notify) (ready_in : option N)
  : outcome (option Event.t) * Notify :=
  readEvent self ready_in timeout_default.

(** ** Sequences of calls *)

Inductive call : Type :=
  | AddWatch (path : pystr) (mask : Z)
  | RmWatch (path : pystr).

(** One call against the kernel of that moment; an exception leaves the
    session in the state the method had reached. *)
Definition step (self : Notify) (kc : Kernel * call) : Notify :=
  match kc.2 with
  | AddWatch p m => (addWatch kc.1 self p m).2
  | RmWatch p => (rmWatch kc.1 self p).2
  end.

Definition run (self : Notify) (calls : list (Kernel * call)) : Notify :=
  foldl step self calls.

(** The two dictionaries are inverses of each other. *)
Definition inverse (self : Notify) : Prop :=
  forall (p : pystr) (w : Z),
    watches self !! p = Some w <-> paths self !! w = Some (PyStr p).

(** The identifier [w] the kernel gives for [p] agrees with the
    registry: [p] and [w] are both new, or [w] is the identifier [p]
    already has. *)
Definition fresh_or_same (self : Notify) (p : pystr) (w : Z) : bool :=
  match watches self !! p with
  | Some w' => bool_decide (w' = w)
  | None => match paths self !! w with None => true | Some _ => false end
  end.

Definition kernel_agrees (K : Kernel) (self : Notify) (c : call) : bool :=
  match c with
  | RmWatch _ => true
  | AddWatch p m =>
      match utf8_encode p with
      | None => true
      | Some encoded =>
          match inotify_add_watch K (fd self) encoded m with
          | AddOk w => fresh_or_same self p w
          | AddFail _ => true
          end
      end
  end.

Fixpoint agrees_along (self : Notify) (calls : list (Kernel * call)) : bool :=
  match calls with
  | [] => true
  | kc :: rest => kernel_agrees kc.1 self kc.2 && agrees_along (step self kc) rest
  end.

(** ** Concrete data for the examples *)

(** A kernel whose add-watch returns [w] and whose remove-watch returns
    the status [st]. *)
Definition kernel_giving (w st : Z) : Kernel :=
  {| inotify_add_watch := fun _ _ _ => AddOk w;
     inotify_rm_watch := fun _ _ => st |}.

Definition kernel_failing (cause : string) : Kernel :=
  {| inotify_add_watch := fun _ _ _ => AddFail cause;
     inotify_rm_watch := fun _ _ => -1 |}.

Definition IN_CREATE : Z := 256.

Definition srp : pystr := py "/tmp/srp".
Definition srp2 : pystr := py "/tmp/srp2".

(** A header of 16 bytes for the fields [wd], [mask], [cookie], [length]
    (each below 256, for the examples). *)
Definition header_bytes (w m c l : N) : list byte :=
  [byte_of_N w; x00; x00; x00; byte_of_N m; x00; x00; x00;
   byte_of_N c; x00; x00; x00; byte_of_N l; x00; x00; x00].

Definition session1 (stream : list byte) : Notify :=
  (addWatch (kernel_giving 1 0) (Notify_init 3 stream) srp IN_CREATE).2.

(** Calls used in the examples: two watches, a re-registration for which
    the kernel gives the identifier the path already has, a removal. *)
Definition demo_calls : list (Kernel * call) :=
  [(kernel_giving 1 0, AddWatch srp IN_CREATE);
   (kernel_giving 2 0, AddWatch srp2 IN_CREATE);
   (kernel_giving 1 0, AddWatch srp IN_CREATE);
   (kernel_giving 0 0, RmWatch srp2)].

(** The same path registered twice, the kernel giving 1 and then 2. *)
Definition twice_calls : list (Kernel * call) :=
  [(kernel_giving 1 0, AddWatch srp IN_CREATE);
   (kernel_giving 2 0, AddWatch srp IN_CREATE)].

(** A session in which [paths] holds None for the identifier of
    /tmp/srp. *)
Definition session_none : Notify :=
  mkNotify 3 [] (<[1 := PyNone]> ∅) (<[srp := 1]> ∅).

(** Streams for the examples.  The watch /tmp/srp has identifier 1 in
    [session1]; identifier 7 is not registered. *)
Definition hdr_7_len0 : list byte := header_bytes 7 2 0 0.
Definition hdr_7_len8 : list byte := header_bytes 7 2 0 8.
Definition hdr_1_len8 : list byte := header_bytes 1 2 0 8.

Definition foo_padded : list byte := pybytes "foo.txt" ++ [x00].

(** * Properties *)

(** ** The registry *)

(** An entry next to the one just written is settled by the invariant
    of the state before. *)
Ltac other_entry Hinv :=
  let Hne := fresh "Hne" in
  let Hl := fresh "Hl" in
  intros [[? ?]|[Hne Hl]];
  [ left; split; congruence
  | right; split; [intros ->; apply Hinv in Hl; congruence
                  | now apply Hinv] ].

Section Registry.
Context (K : Kernel) (self : Notify).

Lemma addWatch_state (path : pystr) (mask : Z) (encoded : list byte)
    (watch : Z) :
  utf8_encode path = Some encoded ->
  inotify_add_watch K (fd self) encoded mask = AddOk watch ->
  addWatch K self path mask =
    (Returns tt,
     mkNotify (fd self) (filebuf self)
              (<[watch := PyStr path]> (paths self))
              (<[path := watch]> (watches self))).
Proof. intros He Hk. unfold addWatch. now rewrite He, Hk. Qed.

Lemma rmWatch_state (path : pystr) (watch : Z) :
  watches self !! path = Some watch ->
  (rmWatch K self path).2 =
    mkNotify (fd self) (filebuf self) (delete watch (paths self))
             (delete path (watches self)).
Proof.
  intros Hw. unfold rmWatch. rewrite Hw.
  destruct (paths self !! watch) as [[|p]|] eqn:Hp; simpl; try reflexivity.
  now rewrite (delete_id _ _ Hp).
Qed.

Lemma addWatch_inverse (path : pystr) (mask : Z) :
  inverse self ->
  kernel_agrees K self (AddWatch path mask) = true ->
  inverse (addWatch K self path mask).2.
Proof.
  intros Hinv Hk. unfold kernel_agrees in Hk. unfold addWatch.
  destruct (utf8_encode path) as [encoded|]; [|exact Hinv].
  destruct (inotify_add_watch K (fd self) encoded mask) as [w|];
    [|exact Hinv].
  unfold fresh_or_same in Hk. intros p' w'. simpl.
  rewrite !lookup_insert_Some.
  destruct (watches self !! path) as [w0|] eqn:Hw.
  - apply bool_decide_eq_true in Hk. subst w0.
    pose proof (proj1 (Hinv path w) Hw) as Hp.
    split; other_entry Hinv.
  - destruct (paths self !! w) as [v|] eqn:Hp; [discriminate|].
    split; other_entry Hinv.
Qed.

Lemma rmWatch_inverse (path : pystr) :
  inverse self -> inverse (rmWatch K self path).2.
Proof.
  intros Hinv.
  destruct (watches self !! path) as [w|] eqn:Hw.
  - rewrite (rmWatch_state path w Hw). intros p' w'. simpl.
    rewrite !lookup_delete_Some.
    pose proof (proj1 (Hinv path w) Hw) as Hp.
    split.
    + intros [Hne Hl]. split; [|now apply Hinv].
      intros ->. apply Hinv in Hl. congruence.
    + intros [Hne Hl]. split; [|now apply Hinv].
      intros ->. apply Hinv in Hl. congruence.
  - unfold rmWatch. now rewrite Hw.
Qed.
End Registry.

Lemma inverse_init (fd0 : Z) (stream : list byte) :
  inverse (Notify_init fd0 stream).
Proof. intros p w. simpl. now rewrite !lookup_empty. Qed.

Lemma step_inverse (self : Notify) (kc : Kernel * call) :
  inverse self -> kernel_agrees kc.1 self kc.2 = true ->
  inverse (step self kc).
Proof.
  destruct kc as [K [p m|p]]; unfold step; simpl; intros Hinv Hk.
  - now apply addWatch_inverse.
  - now apply rmWatch_inverse.
Qed.

Lemma run_inverse (calls : list (Kernel * call)) :
  forall (self : Notify) (n : nat),
    inverse self -> agrees_along self calls = true ->
    inverse (run self (take n calls)).
Proof.
  induction calls as [|kc rest IH]; intros self n Hinv Hag.
  - now rewrite take_nil.
  - destruct n as [|n]; [exact Hinv|].
    simpl in Hag. apply andb_prop in Hag as [Hk Hrest].
    simpl. apply IH; [|exact Hrest]. now apply step_inverse.
Qed.

(** C1, as the code has it: from a new session, along every sequence of
    addWatch and rmWatch calls in which each identifier the kernel
    returns agrees with the registry (the path and the identifier are
    both new, or the identifier is the one the path already has), the
    two dictionaries are inverses of each other after every prefix of
    the sequence. *)
Theorem registry_inverse_along_calls (fd0 : Z) (stream : list byte)
    (calls : list (Kernel * call)) (n : nat) :
  agrees_along (Notify_init fd0 stream) calls = true ->
  inverse (run (Notify_init fd0 stream) (take n calls)).
Proof. intros Hag. apply run_inverse; [apply inverse_init | exact Hag]. Qed.

Lemma registry_inverse_along_calls_witness :
  agrees_along (Notify_init 3 []) demo_calls = true
  /\ inverse (run (Notify_init 3 []) (take 4 demo_calls)).
Proof.
  split; [vm_compute; reflexivity|].
  apply (registry_inverse_along_calls 3 [] demo_calls 4).
  vm_compute; reflexivity.
Defined.

(** C1 fails for arbitrary identifiers: registering /tmp/srp twice, the
    kernel giving 1 and then 2, leaves 1 -> /tmp/srp in [paths] while
    [watches] has /tmp/srp -> 2. *)
Lemma registry_not_inverse_arbitrary_ids :
  paths (run (Notify_init 3 []) twice_calls) !! 1 = Some (PyStr srp)
  /\ watches (run (Notify_init 3 []) twice_calls) !! srp = Some 2
  /\ ~ inverse (run (Notify_init 3 []) twice_calls).
Proof.
  assert (Hp : paths (run (Notify_init 3 []) twice_calls) !! 1
               = Some (PyStr srp)) by (vm_compute; reflexivity).
  assert (Hw : watches (run (Notify_init 3 []) twice_calls) !! srp
               = Some 2) by (vm_compute; reflexivity).
  split; [exact Hp|]. split; [exact Hw|].
  intros Hinv. apply Hinv in Hp. rewrite Hp in Hw. discriminate.
Qed.

(** C6, as the code has it: addWatch on a path that is already
    registered makes both dictionaries resolve the path to the new
    identifier; the entry of the old identifier in [paths] is not
    deleted, so an old identifier that was resolvable stays resolvable,
    with its previous value when it differs from the new one. *)
Theorem addWatch_again_keeps_old_id (K : Kernel) (self : Notify)
    (path : pystr) (mask : Z) (encoded : list byte) (old new : Z)
    (v : pathval) :
  watches self !! path = Some old ->
  paths self !! old = Some v ->
  utf8_encode path = Some encoded ->
  inotify_add_watch K (fd self) encoded mask = AddOk new ->
  watches (addWatch K self path mask).2 !! path = Some new
  /\ paths (addWatch K self path mask).2 !! new = Some (PyStr path)
  /\ is_Some (paths (addWatch K self path mask).2 !! old)
  /\ (old <> new -> paths (addWatch K self path mask).2 !! old = Some v).
Proof.
  intros Hw Hp He Hk. rewrite (addWatch_state K self path mask encoded new He Hk).
  simpl. rewrite !lookup_insert_eq. repeat split.
  - destruct (decide (new = old)) as [->|Hne].
    + rewrite lookup_insert_eq. eauto.
    + rewrite lookup_insert_ne by exact Hne. eauto.
  - intros Hne. rewrite lookup_insert_ne by congruence. exact Hp.
Qed.

Lemma addWatch_again_keeps_old_id_witness :
  watches (session1 []) !! srp = Some 1
  /\ paths (session1 []) !! 1 = Some (PyStr srp)
  /\ watches (addWatch (kernel_giving 2 0) (session1 []) srp IN_CREATE).2
       !! srp = Some 2
  /\ paths (addWatch (kernel_giving 2 0) (session1 []) srp IN_CREATE).2
       !! 1 = Some (PyStr srp).
Proof.
  assert (Hw : watches (session1 []) !! srp = Some 1)
    by (vm_compute; reflexivity).
  assert (Hp : paths (session1 []) !! 1 = Some (PyStr srp))
    by (vm_compute; reflexivity).
  assert (He : utf8_encode srp = Some (pybytes "/tmp/srp"))
    by (vm_compute; reflexivity).
  destruct (addWatch_again_keeps_old_id (kernel_giving 2 0) (session1 [])
              srp IN_CREATE (pybytes "/tmp/srp") 1 2 (PyStr srp)
              Hw Hp He eq_refl) as (H1 & _ & _ & H4).
  split; [exact Hw|]. split; [exact Hp|]. split; [exact H1|].
  apply H4. lia.
Defined.

(** C6 fails: after /tmp/srp is registered with identifier 1 and
    registered again with identifier 2, identifier 1 still resolves in
    [paths]. *)
Lemma reregistered_old_id_still_resolves :
  watches (session1 []) !! srp = Some 1
  /\ watches (addWatch (kernel_giving 2 0) (session1 []) srp IN_CREATE).2
       !! srp = Some 2
  /\ paths (addWatch (kernel_giving 2 0) (session1 []) srp IN_CREATE).2
       !! 1 = Some (PyStr srp).
Proof.
  split; [vm_compute; reflexivity|].
  split; vm_compute; reflexivity.
Qed.

(** C7: rmWatch on a path that is not a key of [watches] raises the
    exception "watch descriptor not found for that path" (the spec's
    UnknownWatchError) and leaves the session, both dictionaries
    included, as it was. *)
Theorem rmWatch_unregistered (K : Kernel) (self : Notify) (path : pystr) :
  watches self !! path = None ->
  rmWatch K self path =
    (Raises (Exception "watch descriptor not found for that path"), self).
Proof. intros Hw. unfold rmWatch. now rewrite Hw. Qed.

Lemma rmWatch_unregistered_witness :
  watches (session1 []) !! srp2 = None
  /\ rmWatch (kernel_giving 0 0) (session1 []) srp2 =
       (Raises (Exception "watch descriptor not found for that path"),
        session1 []).
Proof.
  split; [vm_compute; reflexivity|].
  apply (rmWatch_unregistered (kernel_giving 0 0) (session1 []) srp2).
  vm_compute; reflexivity.
Defined.

(** C8: rmWatch on a registered path returns (it does not raise) in a
    state where the entry of the path is deleted from [watches] and the
    entry of its identifier from [paths], whatever status the kernel's
    remove-watch gives; the status, a failure included, is what the
    call returns together with that state when the identifier resolved
    to a path. *)
Theorem rmWatch_cleans_both (K : Kernel) (self : Notify) (path : pystr)
    (watch : Z) :
  watches self !! path = Some watch ->
  watches (rmWatch K self path).2 = delete path (watches self)
  /\ paths (rmWatch K self path).2 = delete watch (paths self)
  /\ watches (rmWatch K self path).2 !! path = None
  /\ paths (rmWatch K self path).2 !! watch = None
  /\ (exists ret, (rmWatch K self path).1 = Returns ret)
  /\ (forall p, paths self !! watch = Some (PyStr p) ->
        (rmWatch K self path).1 = Returns (inotify_rm_watch K (fd self) watch)).
Proof.
  intros Hw. rewrite (rmWatch_state K self path watch Hw). simpl.
  rewrite !lookup_delete_eq. repeat split.
  - unfold rmWatch. rewrite Hw.
    destruct (paths self !! watch) as [[|p]|]; simpl; eauto.
  - intros p Hp. unfold rmWatch. now rewrite Hw, Hp.
Qed.

Lemma rmWatch_cleans_both_witness :
  watches (session1 []) !! srp = Some 1
  /\ watches (rmWatch (kernel_giving 0 (-1)) (session1 []) srp).2 !! srp = None
  /\ paths (rmWatch (kernel_giving 0 (-1)) (session1 []) srp).2 !! 1 = None
  /\ (rmWatch (kernel_giving 0 (-1)) (session1 []) srp).1 = Returns (-1).
Proof.
  assert (Hw : watches (session1 []) !! srp = Some 1)
    by (vm_compute; reflexivity).
  destruct (rmWatch_cleans_both (kernel_giving 0 (-1)) (session1 []) srp 1 Hw)
    as (_ & _ & H3 & H4 & _ & H6).
  split; [exact Hw|]. split; [exact H3|]. split; [exact H4|].
  apply (H6 srp). vm_compute; reflexivity.
Defined.

(** C9: when the kernel's add-watch fails with a cause, addWatch raises
    the WatchRegistrationError carrying that cause and the session,
    both dictionaries included, is as it was. *)
Theorem addWatch_kernel_failure (K : Kernel) (self : Notify) (path : pystr)
    (mask : Z) (encoded : list byte) (cause : string) :
  utf8_encode path = Some encoded ->
  inotify_add_watch K (fd self) encoded mask = AddFail cause ->
  addWatch K self path mask = (Raises (WatchRegistrationError cause), self).
Proof. intros He Hk. unfold addWatch. now rewrite He, Hk. Qed.

Lemma addWatch_kernel_failure_witness :
  utf8_encode srp2 = Some (pybytes "/tmp/srp2")
  /\ addWatch (kernel_failing "ENOENT") (session1 []) srp2 IN_CREATE =
       (Raises (WatchRegistrationError "ENOENT"), session1 []).
Proof.
  split; [vm_compute; reflexivity|].
  apply (addWatch_kernel_failure (kernel_failing "ENOENT") (session1 []) srp2
           IN_CREATE (pybytes "/tmp/srp2") "ENOENT");
    [vm_compute; reflexivity | reflexivity].
Defined.

(** C10: rmWatch on a registered path returns an integer, the status
    the kernel's remove-watch returned, except that it returns -1 when
    [paths] holds None for the removed identifier. *)
Theorem rmWatch_returns_status (K : Kernel) (self : Notify) (path : pystr)
    (watch : Z) :
  watches self !! path = Some watch ->
  (rmWatch K self path).1 =
    Returns (match paths self !! watch with
             | Some PyNone => -1
             | _ => inotify_rm_watch K (fd self) watch
             end).
Proof.
  intros Hw. unfold rmWatch. rewrite Hw.
  now destruct (paths self !! watch) as [[|p]|].
Qed.

Lemma rmWatch_returns_status_witness :
  watches (session1 []) !! srp = Some 1
  /\ (rmWatch (kernel_giving 0 7) (session1 []) srp).1 = Returns 7
  /\ (rmWatch (kernel_giving 0 7) session_none srp).1 = Returns (-1).
Proof.
  assert (Hw : watches (session1 []) !! srp = Some 1)
    by (vm_compute; reflexivity).
  assert (Hn : watches session_none !! srp = Some 1)
    by (vm_compute; reflexivity).
  split; [exact Hw|]. split.
  - exact (rmWatch_returns_status (kernel_giving 0 7) (session1 []) srp 1 Hw).
  - exact (rmWatch_returns_status (kernel_giving 0 7) session_none srp 1 Hn).
Defined.

(** ** Decoding *)

Lemma utf8_decode_app_bounded (n : nat) :
  forall (a b : list byte) (s : pystr),
    (List.length a <= n)%nat ->
    utf8_decode a = Some s ->
    utf8_decode (a ++ b) =
      match utf8_decode b with Some t => Some (s ++ t) | None => None end.
Proof.
  induction n as [|n IH]; intros a b s Hn Ha.
  - destruct a; [|simpl in Hn; lia].
    simpl in *. injection Ha as <-. now destruct (utf8_decode b).
  - destruct a as [|b1 t1].
    { simpl in *. injection Ha as <-. now destruct (utf8_decode b). }
    simpl in Hn. cbn [utf8_decode app] in *.
    destruct (Byte.to_N b1 <? 128)%N.
    { destruct (utf8_decode t1) as [s1|] eqn:H1; [|discriminate].
      injection Ha as <-. rewrite (IH t1 b s1) by (lia || assumption).
      now destruct (utf8_decode b). }
    destruct ((194 <=? Byte.to_N b1) && (Byte.to_N b1 <=? 223))%N.
    { destruct t1 as [|b2 t2]; [discriminate|]. simpl in Hn. cbn [app].
      destruct (cont 128 191 b2); [|discriminate].
      destruct (utf8_decode t2) as [s2|] eqn:H2; [|discriminate].
      injection Ha as <-. rewrite (IH t2 b s2) by (lia || assumption).
      now destruct (utf8_decode b). }
    destruct ((224 <=? Byte.to_N b1) && (Byte.to_N b1 <=? 239))%N.
    { destruct t1 as [|b2 [|b3 t3]]; try discriminate. simpl in Hn.
      cbn [app].
      destruct (cont _ _ b2); [|discriminate].
      destruct (cont 128 191 b3); [|discriminate].
      destruct (utf8_decode t3) as [s3|] eqn:H3; [|discriminate].
      injection Ha as <-. rewrite (IH t3 b s3) by (lia || assumption).
      now destruct (utf8_decode b). }
    destruct ((240 <=? Byte.to_N b1) && (Byte.to_N b1 <=? 244))%N;
      [|discriminate].
    destruct t1 as [|b2 [|b3 [|b4 t4]]]; try discriminate. simpl in Hn.
    cbn [app].
    destruct (cont _ _ b2); [|discriminate].
    destruct (cont 128 191 b3); [|discriminate].
    destruct (cont 128 191 b4); [|discriminate].
    destruct (utf8_decode t4) as [s4|] eqn:H4; [|discriminate].
    injection Ha as <-. rewrite (IH t4 b s4) by (lia || assumption).
    now destruct (utf8_decode b).
Qed.

Lemma utf8_decode_app (a b : list byte) (s t : pystr) :
  utf8_decode a = Some s -> utf8_decode b = Some t ->
  utf8_decode (a ++ b) = Some (s ++ t).
Proof.
  intros Ha Hb.
  rewrite (utf8_decode_app_bounded (List.length a) a b s (le_n _) Ha).
  now rewrite Hb.
Qed.

(** The decoder keeps NUL bytes: each becomes the character U+0000. *)
Lemma utf8_decode_nuls (k : nat) :
  utf8_decode (replicate k x00) = Some (replicate k 0%N).
Proof.
  induction k as [|k IH]; [reflexivity|].
  cbn [replicate utf8_decode]. simpl (Byte.to_N x00 <? 128)%N.
  now rewrite IH.
Qed.

(** ** Reading one record *)

Lemma readinto_header (hdr rest : list byte) :
  List.length hdr = header_size ->
  readinto (hdr ++ rest) = (header_size, hdr, rest).
Proof.
  intros Hl. unfold readinto.
  rewrite (take_app_length' hdr rest header_size (eq_sym Hl)).
  rewrite (drop_app_length' hdr rest header_size (eq_sym Hl)).
  rewrite Hl, Nat.sub_diag. simpl. now rewrite app_nil_r.
Qed.

Section Record_at_head.
Context (self : Notify) (hdr rest : list byte).
Context (ready_in : option N) (timeout : pytimeout).
Hypothesis Hhdr : List.length hdr = header_size.
Hypothesis Hbuf : filebuf self = hdr ++ rest.
Hypothesis Hsel : select ready_in timeout = Returns true.

Lemma readEvent_without_name :
  Event.length (unpack hdr) <= 0 ->
  readEvent self ready_in timeout =
    (Returns (Some (Event.Make (unpack hdr) None)), set_filebuf self rest).
Proof.
  intros Hz. unfold readEvent.
  rewrite Hsel, Hbuf, (readinto_header hdr rest Hhdr).
  change (header_size =? 0)%nat with false. cbv beta iota zeta.
  destruct (Event.length (unpack hdr) >? 0) eqn:Hgt; [|reflexivity].
  rewrite Z.gtb_ltb in Hgt. apply Z.ltb_lt in Hgt. lia.
Qed.

Lemma readEvent_with_name :
  0 < Event.length (unpack hdr) ->
  readEvent self ready_in timeout =
    (match utf8_decode (take (Z.to_nat (Event.length (unpack hdr))) rest) with
     | None => Raises UnicodeDecodeError
     | Some name =>
         match paths self !! Event.wd (unpack hdr) with
         | None => Raises (KeyError (Event.wd (unpack hdr)))
         | Some PyNone => Raises TypeError
         | Some (PyStr path) =>
             Returns (Some (Event.Make (unpack hdr)
                              (Some (path_join path name))))
         end
     end,
     set_filebuf self (drop (Z.to_nat (Event.length (unpack hdr))) rest)).
Proof.
  intros Hpos. unfold readEvent.
  rewrite Hsel, Hbuf, (readinto_header hdr rest Hhdr).
  change (header_size =? 0)%nat with false. cbv beta iota zeta.
  destruct (Event.length (unpack hdr) >? 0) eqn:Hgt.
  - unfold read.
    destruct (utf8_decode _) as [name|]; [|reflexivity].
    now destruct (paths self !! Event.wd (unpack hdr)) as [[|p]|].
  - rewrite Z.gtb_ltb in Hgt. apply Z.ltb_ge in Hgt. lia.
Qed.
End Record_at_head.

(** C2, as the code has it: for a record whose identifier is not a key
    of [paths], readEvent returns the event without a path when the
    name length is zero; when the name length is positive and the name
    bytes decode, the lookup [self.paths[event.wd]] raises KeyError,
    after the name bytes were consumed. *)
Theorem readEvent_unregistered_wd (self : Notify) (hdr rest : list byte)
    (ready_in : option N) (timeout : pytimeout) :
  List.length hdr = header_size ->
  filebuf self = hdr ++ rest ->
  select ready_in timeout = Returns true ->
  paths self !! Event.wd (unpack hdr) = None ->
  (Event.length (unpack hdr) <= 0 ->
   readEvent self ready_in timeout =
     (Returns (Some (Event.Make (unpack hdr) None)), set_filebuf self rest))
  /\ (0 < Event.length (unpack hdr) ->
      forall name : pystr,
        utf8_decode (take (Z.to_nat (Event.length (unpack hdr))) rest)
          = Some name ->
        readEvent self ready_in timeout =
          (Raises (KeyError (Event.wd (unpack hdr))),
           set_filebuf self
             (drop (Z.to_nat (Event.length (unpack hdr))) rest))).
Proof.
  intros Hhdr Hbuf Hsel Hwd. split.
  - now apply readEvent_without_name.
  - intros Hpos name Hname.
    rewrite (readEvent_with_name self hdr rest ready_in timeout
               Hhdr Hbuf Hsel Hpos).
    now rewrite Hname, Hwd.
Qed.

Lemma readEvent_unregistered_wd_witness :
  paths (session1 (hdr_7_len0 ++ [])) !! 7 = None
  /\ readEvent (session1 (hdr_7_len0 ++ [])) (Some 0%N) (TSecs 0) =
       (Returns (Some (Event.Make (Event.Raw 7 2 0 0) None)),
        set_filebuf (session1 (hdr_7_len0 ++ [])) []).
Proof.
  assert (Hwd : paths (session1 (hdr_7_len0 ++ []))
                  !! Event.wd (unpack hdr_7_len0) = None)
    by (vm_compute; reflexivity).
  split; [exact Hwd|].
  destruct (readEvent_unregistered_wd (session1 (hdr_7_len0 ++ []))
              hdr_7_len0 [] (Some 0%N) (TSecs 0)
              eq_refl eq_refl eq_refl Hwd) as [H0 _].
  apply H0. vm_compute. discriminate.
Defined.

(** C2 fails when the record has a name: identifier 7 is not
    registered, the record declares 8 name bytes, and readEvent raises
    KeyError instead of returning the event. *)
Lemma readEvent_unregistered_wd_with_name_raises :
  paths (session1 (hdr_7_len8 ++ foo_padded)) !! 7 = None
  /\ (readEvent (session1 (hdr_7_len8 ++ foo_padded)) (Some 0%N) (TSecs 0)).1
     = Raises (KeyError 7).
Proof. split; vm_compute; reflexivity. Qed.

(** C3, as the code has it: with the stream at a record boundary, the
    name bytes consumed are those declared by the header or, when fewer
    remain, all that remain, never more; a short name is not an error:
    when only M < N bytes remain, they are taken as the name and the
    event is returned (the bytes decoding and the identifier being
    registered), the stream left empty. *)
Theorem readEvent_short_name (self : Notify) (hdr rest : list byte)
    (ready_in : option N) (timeout : pytimeout) :
  List.length hdr = header_size ->
  filebuf self = hdr ++ rest ->
  select ready_in timeout = Returns true ->
  filebuf (readEvent self ready_in timeout).2 =
    drop (Z.to_nat (Event.length (unpack hdr))) rest
  /\ (0 < Event.length (unpack hdr) ->
      Z.of_nat (List.length rest) < Event.length (unpack hdr) ->
      forall (name path : pystr),
        utf8_decode rest = Some name ->
        paths self !! Event.wd (unpack hdr) = Some (PyStr path) ->
        readEvent self ready_in timeout =
          (Returns (Some (Event.Make (unpack hdr)
                            (Some (path_join path name)))),
           set_filebuf self [])).
Proof.
  intros Hhdr Hbuf Hsel. split.
  - destruct (Z_lt_le_dec 0 (Event.length (unpack hdr))) as [Hpos|Hz].
    + now rewrite (readEvent_with_name self hdr rest ready_in timeout
                     Hhdr Hbuf Hsel Hpos).
    + rewrite (readEvent_without_name self hdr rest ready_in timeout
                 Hhdr Hbuf Hsel Hz).
      now rewrite (Z2Nat.nonpos _ Hz).
  - intros Hpos Hshort name path Hname Hwd.
    rewrite (readEvent_with_name self hdr rest ready_in timeout
               Hhdr Hbuf Hsel Hpos).
    rewrite take_ge, drop_ge by lia.
    now rewrite Hname, Hwd.
Qed.

Lemma readEvent_short_name_witness :
  Z.of_nat (List.length (pybytes "foo"))
    < Event.length (unpack hdr_1_len8)
  /\ readEvent (session1 (hdr_1_len8 ++ pybytes "foo")) (Some 0%N) (TSecs 0) =
       (Returns (Some (Event.Make (unpack hdr_1_len8)
                         (Some (path_join srp (py "foo"))))),
        set_filebuf (session1 (hdr_1_len8 ++ pybytes "foo")) []).
Proof.
  assert (Hshort : Z.of_nat (List.length (pybytes "foo"))
                   < Event.length (unpack hdr_1_len8))
    by (vm_compute; reflexivity).
  split; [exact Hshort|].
  destruct (readEvent_short_name (session1 (hdr_1_len8 ++ pybytes "foo"))
              hdr_1_len8 (pybytes "foo") (Some 0%N) (TSecs 0)
              eq_refl eq_refl eq_refl) as [_ H].
  apply H; [vm_compute; reflexivity | exact Hshort | vm_compute; reflexivity
           | vm_compute; reflexivity].
Defined.

(** C3 fails: the header declares 8 name bytes, 3 remain, and readEvent
    returns an event whose path is /tmp/srp/foo; no exception is
    raised. *)
Lemma readEvent_short_name_is_no_error :
  (readEvent (session1 (hdr_1_len8 ++ pybytes "foo")) (Some 0%N) (TSecs 0)).1
    = Returns (Some (Event.Make (Event.Raw 1 2 0 8) (Some (py "/tmp/srp/foo"))))
  /\ (forall e : exn,
        (readEvent (session1 (hdr_1_len8 ++ pybytes "foo"))
                   (Some 0%N) (TSecs 0)).1 <> Raises e).
Proof.
  assert (H : (readEvent (session1 (hdr_1_len8 ++ pybytes "foo"))
                         (Some 0%N) (TSecs 0)).1
              = Returns (Some (Event.Make (Event.Raw 1 2 0 8)
                                 (Some (py "/tmp/srp/foo")))))
    by (vm_compute; reflexivity).
  split; [exact H|]. intros e He. rewrite H in He. discriminate.
Qed.

(** What [readEvent] hands to the constructor: the name bytes are
    decoded as UTF-8 and joined to the path of the watch as they are.
    When the payload is the bytes of a name followed by [k] NUL bytes,
    the path argument is the path of the watch joined with the name
    followed by [k] characters U+0000. *)
Lemma readEvent_path_keeps_padding (self : Notify)
    (hdr name_bytes rest : list byte) (k : nat)
    (ready_in : option N) (timeout : pytimeout) (name path : pystr) :
  List.length hdr = header_size ->
  filebuf self = hdr ++ (name_bytes ++ replicate k x00) ++ rest ->
  select ready_in timeout = Returns true ->
  0 < Event.length (unpack hdr) ->
  Event.length (unpack hdr) = Z.of_nat (List.length name_bytes + k) ->
  utf8_decode name_bytes = Some name ->
  paths self !! Event.wd (unpack hdr) = Some (PyStr path) ->
  readEvent self ready_in timeout =
    (Returns (Some (Event.Make (unpack hdr)
                      (Some (path_join path (name ++ replicate k 0%N))))),
     set_filebuf self rest).
Proof.
  intros Hhdr Hbuf Hsel Hpos Hlen Hname Hwd.
  rewrite (readEvent_with_name self hdr _ ready_in timeout
             Hhdr Hbuf Hsel Hpos).
  assert (Hn : Z.to_nat (Event.length (unpack hdr))
               = List.length (name_bytes ++ replicate k x00)).
  { rewrite Hlen, Nat2Z.id, length_app, length_replicate. reflexivity. }
  rewrite (take_app_length' _ rest _ Hn), (drop_app_length' _ rest _ Hn).
  rewrite (utf8_decode_app _ _ _ _ Hname (utf8_decode_nuls k)).
  now rewrite Hwd.
Qed.

(** Trailing NULs and the join. *)












(** C5, what the code does: the default of [timeout] is 0, and
    [select] with 0 polls.  A call of readEvent without the argument
    returns None at once, the stream untouched, both when the channel
    becomes readable only later and when it never does; it never
    blocks.  With the timeout None the same channel would have been
    waited for. *)
Theorem readEvent_noarg_polls (self : Notify) (d : N) :
  timeout_default = TSecs 0
  /\ readEvent_noarg self (Some (N.succ d)) = (Returns None, self)
  /\ readEvent_noarg self None = (Returns None, self)
  /\ select (Some (N.succ d)) TNone = Returns true.
Proof.
  split; [reflexivity|]. split; [|split; reflexivity].
  unfold readEvent_noarg, readEvent, timeout_default, select.
  change (0 <? 0) with false. cbv iota.
  assert (H : (Z.of_N (N.succ d) <=? 0) = false) by (apply Z.leb_gt; lia).
  now rewrite H.
Qed.

(** * Further properties of the session *)

(** ** [addWatch] and [rmWatch] composed *)

(** X1: registering a path again, the kernel answering as before,
    changes nothing: the second addWatch ends as the first did, in the
    same state. *)
Theorem addWatch_idempotent (K : Kernel) (self : Notify) (path : pystr)
    (mask : Z) :
  addWatch K (addWatch K self path mask).2 path mask
  = addWatch K self path mask.
Proof.
  unfold addWatch.
  destruct (utf8_encode path) as [encoded|] eqn:He; [|reflexivity].
  destruct (inotify_add_watch K (fd self) encoded mask) as [w|cause] eqn:Hk;
    simpl; rewrite Hk; [|reflexivity].
  simpl. now rewrite !insert_insert_eq.
Qed.

(** X2: a path cannot be removed twice: whatever the first rmWatch
    did, a second rmWatch on the same path raises "watch descriptor not
    found for that path" and leaves the session as the first left it. *)
Theorem rmWatch_twice_raises (K K' : Kernel) (self : Notify) (path : pystr) :
  rmWatch K' (rmWatch K self path).2 path =
    (Raises (Exception "watch descriptor not found for that path"),
     (rmWatch K self path).2).
Proof.
  assert (Hgone : watches (rmWatch K self path).2 !! path = None).
  { destruct (watches self !! path) as [w|] eqn:Hw.
    - rewrite (rmWatch_state K self path w Hw). simpl.
      apply lookup_delete_eq.
    - unfold rmWatch. now rewrite Hw. }
  unfold rmWatch at 1. now rewrite Hgone.
Qed.

(** X3: addWatch followed by rmWatch is a round trip: when neither the
    path nor the identifier the kernel gives was in the registry,
    removing the path returns the status of the kernel's remove-watch
    and the session is again what it was before the addWatch. *)
Theorem addWatch_rmWatch_restores (K K' : Kernel) (self : Notify)
    (path : pystr) (mask : Z) (encoded : list byte) (watch : Z) :
  watches self !! path = None ->
  paths self !! watch = None ->
  utf8_encode path = Some encoded ->
  inotify_add_watch K (fd self) encoded mask = AddOk watch ->
  rmWatch K' (addWatch K self path mask).2 path =
    (Returns (inotify_rm_watch K' (fd self) watch), self).
Proof.
  intros Hw Hp He Hk.
  rewrite (addWatch_state K self path mask encoded watch He Hk).
  unfold rmWatch. simpl. rewrite !lookup_insert_eq.
  rewrite (delete_insert_id _ _ _ Hw), (delete_insert_id _ _ _ Hp).
  now destruct self.
Qed.

Lemma addWatch_rmWatch_restores_witness :
  watches (session1 []) !! srp2 = None
  /\ rmWatch (kernel_giving 0 0)
       (addWatch (kernel_giving 2 0) (session1 []) srp2 IN_CREATE).2 srp2
     = (Returns 0, session1 []).
Proof.
  assert (Hw : watches (session1 []) !! srp2 = None)
    by (vm_compute; reflexivity).
  split; [exact Hw|].
  apply (addWatch_rmWatch_restores (kernel_giving 2 0) (kernel_giving 0 0)
           (session1 []) srp2 IN_CREATE (pybytes "/tmp/srp2") 2 Hw);
    [vm_compute; reflexivity | vm_compute; reflexivity | reflexivity].
Defined.

(** X4: rmWatch touches the entries of its own path only: every other
    path keeps its identifier, and every identifier other than the one
    the path had keeps its value. *)
Theorem rmWatch_other_entries (K : Kernel) (self : Notify)
    (path p' : pystr) (w' : Z) :
  p' <> path ->
  watches self !! path <> Some w' ->
  watches (rmWatch K self path).2 !! p' = watches self !! p'
  /\ paths (rmWatch K self path).2 !! w' = paths self !! w'.
Proof.
  intros Hp Hw'.
  destruct (watches self !! path) as [w|] eqn:Hw.
  - rewrite (rmWatch_state K self path w Hw). simpl.
    rewrite !lookup_delete_ne by congruence. now split.
  - unfold rmWatch. now rewrite Hw.
Qed.

Lemma rmWatch_other_entries_witness :
  watches (rmWatch (kernel_giving 0 0)
             (run (Notify_init 3 []) (take 2 demo_calls)) srp).2 !! srp2
  = Some 2
  /\ paths (rmWatch (kernel_giving 0 0)
              (run (Notify_init 3 []) (take 2 demo_calls)) srp).2 !! 2
     = Some (PyStr srp2).
Proof.
  destruct (rmWatch_other_entries (kernel_giving 0 0)
              (run (Notify_init 3 []) (take 2 demo_calls)) srp srp2 2)
    as [Hw Hp].
  - vm_compute. discriminate.
  - vm_compute. discriminate.
  - split; [rewrite Hw | rewrite Hp]; vm_compute; reflexivity.
Defined.

(** X5: addWatch touches the entries it writes only: whether it
    returns or raises, every other path keeps its identifier, and every
    identifier other than the one the kernel gave keeps its value; the
    descriptor and the stream are never changed. *)
Theorem addWatch_other_entries (K : Kernel) (self : Notify)
    (path p' : pystr) (mask w' : Z) :
  p' <> path ->
  (forall encoded, utf8_encode path = Some encoded ->
     inotify_add_watch K (fd self) encoded mask <> AddOk w') ->
  watches (addWatch K self path mask).2 !! p' = watches self !! p'
  /\ paths (addWatch K self path mask).2 !! w' = paths self !! w'
  /\ fd (addWatch K self path mask).2 = fd self
  /\ filebuf (addWatch K self path mask).2 = filebuf self.
Proof.
  intros Hp Hw'. unfold addWatch.
  destruct (utf8_encode path) as [encoded|] eqn:He; [|easy].
  specialize (Hw' encoded eq_refl).
  destruct (inotify_add_watch K (fd self) encoded mask) as [w|cause];
    [|easy].
  simpl. rewrite !lookup_insert_ne by congruence. easy.
Qed.

Lemma addWatch_other_entries_witness :
  watches (addWatch (kernel_giving 2 0) (session1 []) srp2 IN_CREATE).2
    !! srp = Some 1
  /\ paths (addWatch (kernel_giving 2 0) (session1 []) srp2 IN_CREATE).2
       !! 1 = Some (PyStr srp).
Proof.
  destruct (addWatch_other_entries (kernel_giving 2 0) (session1 [])
              srp2 srp IN_CREATE 1) as (H1 & H2 & _).
  - vm_compute. discriminate.
  - intros encoded _. simpl. discriminate.
  - split; [rewrite H1 | rewrite H2]; vm_compute; reflexivity.
Defined.

(** ** What the two dictionaries can hold *)

Lemma step_fd (self : Notify) (kc : Kernel * call) :
  fd (step self kc) = fd self.
Proof.
  destruct kc as [K [p m|p]]; unfold step; simpl.
  - unfold addWatch. destruct (utf8_encode p); [|reflexivity].
    now destruct (inotify_add_watch K (fd self) l m).
  - unfold rmWatch. destruct (watches self !! p) as [w|]; [|reflexivity].
    now destruct (paths self !! w) as [[|q]|].
Qed.

Lemma run_fd (calls : list (Kernel * call)) :
  forall self : Notify, fd (run self calls) = fd self.
Proof.
  induction calls as [|kc rest IH]; intros self; [reflexivity|].
  simpl. now rewrite IH, step_fd.
Qed.

Lemma step_no_None (self : Notify) (kc : Kernel * call) :
  (forall w, paths self !! w <> Some PyNone) ->
  forall w, paths (step self kc) !! w <> Some PyNone.
Proof.
  intros Hself w. destruct kc as [K [p m|p]]; unfold step; simpl.
  - unfold addWatch. destruct (utf8_encode p) as [encoded|]; [|apply Hself].
    destruct (inotify_add_watch K (fd self) encoded m) as [w0|];
      [|apply Hself].
    simpl. rewrite lookup_insert_Some. intros [[_ Heq]|[_ Hl]];
      [discriminate | now apply (Hself w)].
  - destruct (watches self !! p) as [w0|] eqn:Hw.
    + rewrite (rmWatch_state K self p w0 Hw). simpl.
      rewrite lookup_delete_Some. intros [_ Hl]. now apply (Hself w).
    + unfold rmWatch. rewrite Hw. apply Hself.
Qed.

Lemma run_no_None (calls : list (Kernel * call)) :
  forall self : Notify,
    (forall w, paths self !! w <> Some PyNone) ->
    forall w, paths (run self calls) !! w <> Some PyNone.
Proof.
  induction calls as [|kc rest IH]; intros self Hself; [exact Hself|].
  simpl. apply IH. now apply step_no_None.
Qed.

(** X6: along every sequence of addWatch and rmWatch calls on a new
    session, whatever the kernel answers, [paths] never holds None for
    an identifier: an identifier is absent or resolves to a path. *)
Theorem paths_never_hold_None (fd0 : Z) (stream : list byte)
    (calls : list (Kernel * call)) (w : Z) :
  paths (run (Notify_init fd0 stream) calls) !! w = None
  \/ exists p : pystr,
       paths (run (Notify_init fd0 stream) calls) !! w = Some (PyStr p).
Proof.
  assert (Hnew : forall w0, paths (Notify_init fd0 stream) !! w0
                            <> Some PyNone).
  { intros w0. simpl. now rewrite lookup_empty. }
  pose proof (run_no_None calls (Notify_init fd0 stream) Hnew w) as Hw.
  destruct (paths (run (Notify_init fd0 stream) calls) !! w) as [[|p]|];
    [now destruct Hw | right; now exists p | now left].
Qed.

(** X7: hence, on a session that was only used through addWatch and
    rmWatch, rmWatch on a registered path returns the status of the
    kernel's remove-watch; the value -1 of the None test is never what
    decides the result. *)
Theorem rmWatch_status_after_calls (fd0 : Z) (stream : list byte)
    (calls : list (Kernel * call)) (K : Kernel) (path : pystr) (watch : Z) :
  watches (run (Notify_init fd0 stream) calls) !! path = Some watch ->
  (rmWatch K (run (Notify_init fd0 stream) calls) path).1
  = Returns (inotify_rm_watch K fd0 watch).
Proof.
  intros Hw.
  assert (Hnew : forall w0, paths (Notify_init fd0 stream) !! w0
                            <> Some PyNone).
  { intros w0. simpl. now rewrite lookup_empty. }
  pose proof (run_no_None calls (Notify_init fd0 stream) Hnew watch) as Hp.
  unfold rmWatch. rewrite Hw, run_fd. simpl.
  now destruct (paths (run (Notify_init fd0 stream) calls) !! watch)
    as [[|q]|].
Qed.

Lemma rmWatch_status_after_calls_witness :
  watches (run (Notify_init 3 []) twice_calls) !! srp = Some 2
  /\ (rmWatch (kernel_giving 0 7) (run (Notify_init 3 []) twice_calls) srp).1
     = Returns 7.
Proof.
  assert (Hw : watches (run (Notify_init 3 []) twice_calls) !! srp = Some 2)
    by (vm_compute; reflexivity).
  split; [exact Hw|].
  exact (rmWatch_status_after_calls 3 [] twice_calls (kernel_giving 0 7)
           srp 2 Hw).
Defined.

(** ** Paths that cannot be encoded *)

Lemma utf8_encode_surrogate (path : pystr) (c : N) :
  c ∈ path -> is_surrogate c = true -> utf8_encode path = None.
Proof.
  intros Hin Hc. induction path as [|c0 rest IH].
  - now apply elem_of_nil in Hin.
  - apply elem_of_cons in Hin as [<-|Hin].
    + simpl. unfold encode_point.
      unfold is_surrogate in Hc. apply andb_prop in Hc as [Hlo Hhi].
      apply N.leb_le in Hlo.
      destruct (c <? 128)%N eqn:H1; [apply N.ltb_lt in H1; lia|].
      destruct (c <? 2048)%N eqn:H2; [apply N.ltb_lt in H2; lia|].
      unfold is_surrogate. apply N.leb_le in Hlo. now rewrite Hlo, Hhi.
    + simpl. rewrite (IH Hin). now destruct (encode_point c0).
Qed.

(** X8: a path with a surrogate code point (U+D800 to U+DFFF) cannot be
    encoded as UTF-8: addWatch raises UnicodeEncodeError whatever the
    kernel would answer, and the session is unchanged. *)
Theorem addWatch_surrogate_path (K : Kernel) (self : Notify) (path : pystr)
    (mask : Z) (c : N) :
  c ∈ path -> is_surrogate c = true ->
  addWatch K self path mask = (Raises UnicodeEncodeError, self).
Proof.
  intros Hin Hc. unfold addWatch.
  now rewrite (utf8_encode_surrogate path c Hin Hc).
Qed.

Lemma addWatch_surrogate_path_witness :
  addWatch (kernel_giving 2 0) (session1 []) (srp ++ [56320%N]) IN_CREATE
  = (Raises UnicodeEncodeError, session1 []).
Proof.
  apply (addWatch_surrogate_path (kernel_giving 2 0) (session1 [])
           (srp ++ [56320%N]) IN_CREATE 56320%N).
  - apply elem_of_app. right. apply list_elem_of_singleton. reflexivity.
  - reflexivity.
Defined.

(** ** [readEvent] on any stream *)

Lemma readinto_val (buf : list byte) :
  (readinto buf).1.1 = 0%nat <-> buf = [].
Proof.
  unfold readinto, header_size. simpl. destruct buf; simpl; [easy|].
  split; discriminate.
Qed.

Lemma readinto_rest (buf : list byte) :
  (readinto buf).2 = drop header_size buf.
Proof. reflexivity. Qed.

(** The result of a call that found the channel readable and at least
    one byte in the stream. *)
Lemma readEvent_ready (self : Notify) (ready_in : option N)
    (timeout : pytimeout) :
  select ready_in timeout = Returns true ->
  filebuf self <> [] ->
  readEvent self ready_in timeout =
    let mem := (readinto (filebuf self)).1.2 in
    let rest := (readinto (filebuf self)).2 in
    if Event.length (unpack mem) >? 0 then
      (match utf8_decode (take (Z.to_nat (Event.length (unpack mem))) rest) with
       | None => Raises UnicodeDecodeError
       | Some name =>
           match paths self !! Event.wd (unpack mem) with
           | None => Raises (KeyError (Event.wd (unpack mem)))
           | Some PyNone => Raises TypeError
           | Some (PyStr path) =>
               Returns (Some (Event.Make (unpack mem)
                                (Some (path_join path name))))
           end
       end,
       set_filebuf self (drop (Z.to_nat (Event.length (unpack mem))) rest))
    else (Returns (Some (Event.Make (unpack mem) None)), set_filebuf self rest).
Proof.
  intros Hsel Hbuf. unfold readEvent. rewrite Hsel.
  pose proof (readinto_val (filebuf self)) as Hval.
  destruct (readinto (filebuf self)) as [[val mem] rest]. simpl in Hval.
  destruct val as [|val]; [now destruct Hbuf; apply Hval|].
  cbn [Nat.eqb fst snd]. cbv zeta.
  destruct (Event.length (unpack mem) >? 0); [|reflexivity].
  unfold read.
  destruct (utf8_decode _) as [name|]; [|reflexivity].
  now destruct (paths self !! Event.wd (unpack mem)) as [[|p]|].
Qed.

Lemma readEvent_state_cases (self : Notify) (ready_in : option N)
    (timeout : pytimeout) :
  (readEvent self ready_in timeout).2 = self
  \/ exists k : nat,
       (readEvent self ready_in timeout).2
       = set_filebuf self (drop k (filebuf self)).
Proof.
  destruct (select ready_in timeout) as [[|]| |] eqn:Hsel;
    try (left; unfold readEvent; now rewrite Hsel).
  destruct (filebuf self) as [|b buf] eqn:Hbuf.
  - right. exists 0%nat. unfold readEvent. rewrite Hsel, Hbuf. reflexivity.
  - right.
    rewrite (readEvent_ready self ready_in timeout Hsel)
      by (rewrite Hbuf; discriminate).
    rewrite readinto_rest, Hbuf. cbv zeta.
    destruct (Event.length _ >? 0).
    + eexists. cbn [snd]. now rewrite drop_drop.
    + eexists. reflexivity.
Qed.

(** X9: readEvent only reads: whatever it returns or raises, the
    descriptor and both dictionaries are unchanged, and the stream left
    is a suffix of the stream found (bytes are consumed from the front,
    none is put back or made up). *)
Theorem readEvent_only_consumes (self : Notify) (ready_in : option N)
    (timeout : pytimeout) :
  fd (readEvent self ready_in timeout).2 = fd self
  /\ paths (readEvent self ready_in timeout).2 = paths self
  /\ watches (readEvent self ready_in timeout).2 = watches self
  /\ filebuf (readEvent self ready_in timeout).2 `suffix_of` filebuf self.
Proof.
  destruct (readEvent_state_cases self ready_in timeout) as [->|[k ->]].
  - easy.
  - simpl. repeat split. apply suffix_drop.
Qed.

(** X10: readEvent returns None in two cases only: the wait ended with
    no readable descriptor, or the descriptor was readable and the
    stream gave no byte.  With at least one byte readable it returns an
    event or raises. *)
Theorem readEvent_None_iff (self : Notify) (ready_in : option N)
    (timeout : pytimeout) :
  (readEvent self ready_in timeout).1 = Returns None
  <-> select ready_in timeout = Returns false
      \/ (select ready_in timeout = Returns true /\ filebuf self = []).
Proof.
  destruct (select ready_in timeout) as [[|]| |] eqn:Hsel.
  - destruct (filebuf self) as [|b buf] eqn:Hbuf.
    + unfold readEvent. rewrite Hsel, Hbuf. simpl. split; [now right|easy].
    + rewrite (readEvent_ready self ready_in timeout Hsel)
        by (rewrite Hbuf; discriminate).
      cbv zeta. split.
      * destruct (Event.length _ >? 0); cbn [fst]; [|discriminate].
        destruct (utf8_decode _); [|discriminate].
        now destruct (paths self !! _) as [[|p]|].
      * intros [H|[_ H]]; discriminate.
  - unfold readEvent. rewrite Hsel. simpl. split; [now left|easy].
  - unfold readEvent. rewrite Hsel. simpl.
    split; [discriminate|]. intros [H|[H _]]; discriminate.
  - unfold readEvent. rewrite Hsel. simpl.
    split; [discriminate|]. intros [H|[H _]]; discriminate.
Qed.

(** X11: an event returned by readEvent carries a path exactly when the
    name length of its header is positive. *)
Theorem readEvent_name_iff_length (self : Notify) (ready_in : option N)
    (timeout : pytimeout) (ev : Event.t) :
  (readEvent self ready_in timeout).1 = Returns (Some ev) ->
  (is_Some (Event.name ev) <-> 0 < Event.length (Event.header ev)).
Proof.
  destruct (select ready_in timeout) as [[|]| |] eqn:Hsel;
    try (unfold readEvent; rewrite Hsel; discriminate).
  destruct (filebuf self) as [|b buf] eqn:Hbuf.
  { unfold readEvent. rewrite Hsel, Hbuf. discriminate. }
  rewrite (readEvent_ready self ready_in timeout Hsel)
    by (rewrite Hbuf; discriminate).
  cbv zeta.
  destruct (Event.length _ >? 0) eqn:Hgt; cbn [fst].
  - destruct (utf8_decode _); [|discriminate].
    destruct (paths self !! _) as [[|p]|]; try discriminate.
    intros [= <-]. cbn [Event.name Event.header].
    rewrite Z.gtb_ltb in Hgt. apply Z.ltb_lt in Hgt. split; eauto.
  - intros [= <-]. cbn [Event.name].
    rewrite Z.gtb_ltb in Hgt. apply Z.ltb_ge in Hgt.
    split; [intros [x Hx]; discriminate|].
    intros Hpos. change (0 < Event.length (unpack (readinto (filebuf self)).1.2))
      in Hpos. lia.
Qed.

Lemma readEvent_name_iff_length_witness :
  is_Some (Event.name (Event.Make (Event.Raw 1 2 0 8)
                         (Some (py "/tmp/srp/foo.txt" ++ [0%N]))))
  <-> 0 < 8.
Proof.
  apply (readEvent_name_iff_length (session1 (hdr_1_len8 ++ foo_padded))
           (Some 0%N) (TSecs 0)).
  vm_compute; reflexivity.
Defined.

(** ** Short headers and names that are not UTF-8 *)

Lemma nth_zero_fill (buf : list byte) (k i : nat) :
  (List.length buf <= i)%nat ->
  nth i (buf ++ replicate k x00) x00 = x00.
Proof.
  intros Hi. rewrite app_nth2 by lia.
  generalize (i - List.length buf)%nat. clear.
  induction k as [|k IH]; intros [|j]; simpl; auto.
Qed.

(** X12: a header cut short is not noticed.  When the stream holds
    between 1 and 12 bytes, readEvent takes them all as a header whose
    missing bytes are zero: it returns an event without a path, built
    from the padded bytes, and leaves the stream empty. *)
Theorem readEvent_truncated_header (self : Notify) (ready_in : option N)
    (timeout : pytimeout) :
  select ready_in timeout = Returns true ->
  filebuf self <> [] ->
  (List.length (filebuf self) <= 12)%nat ->
  readEvent self ready_in timeout =
    (Returns (Some (Event.Make
                      (unpack (filebuf self
                               ++ replicate (header_size
                                             - List.length (filebuf self)) x00))
                      None)),
     set_filebuf self []).
Proof.
  intros Hsel Hne Hlen.
  rewrite (readEvent_ready self ready_in timeout Hsel Hne).
  unfold readinto. cbn [fst snd]. cbv zeta.
  rewrite take_ge, drop_ge by (unfold header_size; lia).
  set (mem := filebuf self ++ _).
  assert (Hz : Event.length (unpack mem) = 0).
  { unfold unpack, field. cbn [Event.length]. unfold mem.
    rewrite !nth_zero_fill by lia. reflexivity. }
  rewrite Hz. reflexivity.
Qed.

Lemma readEvent_truncated_header_witness :
  readEvent (session1 [x01; x00; x00; x00; x02]) (Some 0%N) (TSecs 0) =
    (Returns (Some (Event.Make (Event.Raw 1 2 0 0) None)),
     set_filebuf (session1 [x01; x00; x00; x00; x02]) []).
Proof.
  apply (readEvent_truncated_header (session1 [x01; x00; x00; x00; x02])
           (Some 0%N) (TSecs 0)).
  - reflexivity.
  - discriminate.
  - simpl. lia.
Defined.

Lemma cont_high_byte (lo hi : N) (b : byte) :
  (hi <= 191)%N -> (245 <= Byte.to_N b)%N -> cont lo hi b = None.
Proof.
  intros Hhi Hb. unfold cont.
  destruct (Byte.to_N b <=? hi)%N eqn:H; [apply N.leb_le in H; lia|].
  now rewrite andb_false_r.
Qed.

Lemma utf8_decode_high_byte_bounded (n : nat) :
  forall (bs : list byte) (b : byte),
    (List.length bs <= n)%nat -> b ∈ bs -> (245 <= Byte.to_N b)%N ->
    utf8_decode bs = None.
Proof.
  induction n as [|n IH]; intros bs b Hn Hin Hb.
  - destruct bs; [now apply elem_of_nil in Hin | simpl in Hn; lia].
  - destruct bs as [|b1 t1]; [now apply elem_of_nil in Hin|].
    simpl in Hn. cbn [utf8_decode].
    destruct (Byte.to_N b1 <? 128)%N eqn:H1.
    { apply N.ltb_lt in H1. apply elem_of_cons in Hin as [->|Hin]; [lia|].
      now rewrite (IH t1 b) by (lia || assumption). }
    destruct ((194 <=? Byte.to_N b1) && (Byte.to_N b1 <=? 223))%N eqn:H2.
    { apply andb_prop in H2 as [_ H2]. apply N.leb_le in H2.
      apply elem_of_cons in Hin as [->|Hin]; [lia|].
      destruct t1 as [|b2 t2]; [reflexivity|]. simpl in Hn.
      apply elem_of_cons in Hin as [->|Hin].
      - now rewrite cont_high_byte by (lia || assumption).
      - rewrite (IH t2 b) by (lia || assumption).
        now destruct (cont 128 191 b2). }
    destruct ((224 <=? Byte.to_N b1) && (Byte.to_N b1 <=? 239))%N eqn:H3.
    { apply andb_prop in H3 as [_ H3]. apply N.leb_le in H3.
      apply elem_of_cons in Hin as [->|Hin]; [lia|].
      destruct t1 as [|b2 [|b3 t3]]; try reflexivity. simpl in Hn.
      apply elem_of_cons in Hin as [->|Hin].
      { rewrite cont_high_byte; [reflexivity | | assumption].
        destruct (Byte.to_N b1 =? 237)%N; lia. }
      destruct (cont _ _ b2); [|reflexivity].
      apply elem_of_cons in Hin as [->|Hin].
      - now rewrite cont_high_byte by (lia || assumption).
      - rewrite (IH t3 b) by (lia || assumption).
        now destruct (cont 128 191 b3). }
    destruct ((240 <=? Byte.to_N b1) && (Byte.to_N b1 <=? 244))%N eqn:H4;
      [|reflexivity].
    apply andb_prop in H4 as [_ H4]. apply N.leb_le in H4.
    apply elem_of_cons in Hin as [->|Hin]; [lia|].
    destruct t1 as [|b2 [|b3 [|b4 t4]]]; try reflexivity. simpl in Hn.
    apply elem_of_cons in Hin as [->|Hin].
    { rewrite cont_high_byte; [reflexivity | | assumption].
      destruct (Byte.to_N b1 =? 244)%N; lia. }
    destruct (cont _ _ b2); [|reflexivity].
    apply elem_of_cons in Hin as [->|Hin].
    { now rewrite cont_high_byte by (lia || assumption). }
    destruct (cont 128 191 b3); [|reflexivity].
    apply elem_of_cons in Hin as [->|Hin].
    + now rewrite cont_high_byte by (lia || assumption).
    + rewrite (IH t4 b) by (lia || assumption).
      now destruct (cont 128 191 b4).
Qed.

(** Bytes F5 to FF occur in no UTF-8 text: [decode('utf-8')] fails
    on every byte string that holds one. *)
Lemma utf8_decode_high_byte (bs : list byte) (b : byte) :
  b ∈ bs -> (245 <= Byte.to_N b)%N -> utf8_decode bs = None.
Proof. apply (utf8_decode_high_byte_bounded (List.length bs)). lia. Qed.

Lemma utf8_decode_high_byte_witness :
  utf8_decode (pybytes "foo" ++ [xff]) = None.
Proof.
  apply (utf8_decode_high_byte (pybytes "foo" ++ [xff]) xff).
  - apply elem_of_app. right. apply list_elem_of_singleton. reflexivity.
  - vm_compute. discriminate.
Defined.

(** X13: a file name that is not UTF-8 makes readEvent raise.  For a
    record at the head of the stream whose name bytes hold a byte F5 to
    FF, readEvent raises UnicodeDecodeError, whether or not the
    identifier is registered (the name is decoded before the identifier
    is looked up), and the name bytes are consumed all the same. *)
Theorem readEvent_undecodable_name (self : Notify) (hdr rest : list byte)
    (ready_in : option N) (timeout : pytimeout) (b : byte) :
  List.length hdr = header_size ->
  filebuf self = hdr ++ rest ->
  select ready_in timeout = Returns true ->
  0 < Event.length (unpack hdr) ->
  b ∈ take (Z.to_nat (Event.length (unpack hdr))) rest ->
  (245 <= Byte.to_N b)%N ->
  readEvent self ready_in timeout =
    (Raises UnicodeDecodeError,
     set_filebuf self (drop (Z.to_nat (Event.length (unpack hdr))) rest)).
Proof.
  intros Hhdr Hbuf Hsel Hpos Hin Hb.
  rewrite (readEvent_with_name self hdr rest ready_in timeout
             Hhdr Hbuf Hsel Hpos).
  now rewrite (utf8_decode_high_byte_bounded _ _ b (le_n _) Hin Hb).
Qed.

Lemma readEvent_undecodable_name_witness :
  readEvent (session1 (hdr_7_len8 ++ xff :: pybytes "oo.txt" ++ [x00; x41]))
            (Some 0%N) (TSecs 0) =
    (Raises UnicodeDecodeError,
     set_filebuf (session1 (hdr_7_len8
                            ++ xff :: pybytes "oo.txt" ++ [x00; x41])) [x41]).
Proof.
  apply (readEvent_undecodable_name
           (session1 (hdr_7_len8 ++ xff :: pybytes "oo.txt" ++ [x00; x41]))
           hdr_7_len8 (xff :: pybytes "oo.txt" ++ [x00; x41])
           (Some 0%N) (TSecs 0) xff).
  - reflexivity.
  - reflexivity.
  - reflexivity.
  - vm_compute; reflexivity.
  - vm_compute. apply elem_of_cons. now left.
  - vm_compute. discriminate.
Defined.

(** ** Registering, removing and reading *)

(** X14: an event for a watch just added resolves to its path.  After
    addWatch has returned with the identifier [w], a record for [w] at
    the head of the stream with a name that decodes is returned with
    the path given to addWatch joined with that name. *)
Theorem addWatch_then_readEvent (K : Kernel) (self : Notify) (path : pystr)
    (mask : Z) (encoded hdr rest : list byte) (ready_in : option N)
    (timeout : pytimeout) (name : pystr) :
  utf8_encode path = Some encoded ->
  inotify_add_watch K (fd self) encoded mask = AddOk (Event.wd (unpack hdr)) ->
  List.length hdr = header_size ->
  filebuf self = hdr ++ rest ->
  select ready_in timeout = Returns true ->
  0 < Event.length (unpack hdr) ->
  utf8_decode (take (Z.to_nat (Event.length (unpack hdr))) rest) = Some name ->
  (readEvent (addWatch K self path mask).2 ready_in timeout).1 =
    Returns (Some (Event.Make (unpack hdr) (Some (path_join path name)))).
Proof.
  intros He Hk Hhdr Hbuf Hsel Hpos Hname.
  rewrite (addWatch_state K self path mask encoded _ He Hk). cbn [snd].
  set (self' := mkNotify _ _ _ _).
  rewrite (readEvent_with_name self' hdr rest ready_in timeout
             Hhdr Hbuf Hsel Hpos).
  unfold self'. cbn [fst paths]. now rewrite Hname, lookup_insert_eq.
Qed.

Lemma addWatch_then_readEvent_witness :
  (readEvent
     (addWatch (kernel_giving 7 0)
        (session1 (hdr_7_len8 ++ pybytes "data.txt")) srp2 IN_CREATE).2
     (Some 0%N) (TSecs 0)).1 =
    Returns (Some (Event.Make (unpack hdr_7_len8)
                     (Some (path_join srp2 (py "data.txt"))))).
Proof.
  apply (addWatch_then_readEvent (kernel_giving 7 0)
           (session1 (hdr_7_len8 ++ pybytes "data.txt")) srp2 IN_CREATE
           (pybytes "/tmp/srp2") hdr_7_len8 (pybytes "data.txt")
           (Some 0%N) (TSecs 0) (py "data.txt")).
  - vm_compute; reflexivity.
  - reflexivity.
  - reflexivity.
  - reflexivity.
  - reflexivity.
  - vm_compute; reflexivity.
  - vm_compute; reflexivity.
Defined.

(** X15: events that arrive for a watch after it was removed.  After
    rmWatch on a registered path, a record for the identifier the path
    had is returned, without a path, when its name length is zero (the
    kernel's IN_IGNORED); when it has a name that decodes, readEvent
    raises KeyError for that identifier. *)
Theorem rmWatch_then_readEvent (K : Kernel) (self : Notify) (path : pystr)
    (hdr rest : list byte) (ready_in : option N) (timeout : pytimeout) :
  watches self !! path = Some (Event.wd (unpack hdr)) ->
  List.length hdr = header_size ->
  filebuf self = hdr ++ rest ->
  select ready_in timeout = Returns true ->
  (Event.length (unpack hdr) <= 0 ->
   (readEvent (rmWatch K self path).2 ready_in timeout).1 =
     Returns (Some (Event.Make (unpack hdr) None)))
  /\ (0 < Event.length (unpack hdr) ->
      forall name : pystr,
        utf8_decode (take (Z.to_nat (Event.length (unpack hdr))) rest)
          = Some name ->
        (readEvent (rmWatch K self path).2 ready_in timeout).1 =
          Raises (KeyError (Event.wd (unpack hdr)))).
Proof.
  intros Hw Hhdr Hbuf Hsel. rewrite (rmWatch_state K self path _ Hw).
  set (self' := mkNotify _ _ _ _). split.
  - intros Hz.
    now rewrite (readEvent_without_name self' hdr rest ready_in timeout
                   Hhdr Hbuf Hsel Hz).
  - intros Hpos name Hname.
    rewrite (readEvent_with_name self' hdr rest ready_in timeout
               Hhdr Hbuf Hsel Hpos).
    unfold self'. cbn [fst paths]. now rewrite Hname, lookup_delete_eq.
Qed.

Lemma rmWatch_then_readEvent_witness :
  (readEvent (rmWatch (kernel_giving 0 0)
                (session1 (hdr_1_len8 ++ foo_padded)) srp).2
             (Some 0%N) (TSecs 0)).1
  = Raises (KeyError 1).
Proof.
  destruct (rmWatch_then_readEvent (kernel_giving 0 0)
              (session1 (hdr_1_len8 ++ foo_padded)) srp hdr_1_len8 foo_padded
              (Some 0%N) (TSecs 0)) as [_ H].
  - vm_compute; reflexivity.
  - reflexivity.
  - reflexivity.
  - reflexivity.
  - apply (H ltac:(vm_compute; reflexivity) (py "foo.txt" ++ [0%N])).
    vm_compute; reflexivity.
Defined.

(** ** [os.path.join] *)

(** X16: the path of an event always ends with the decoded name: the
    second argument of the join is a suffix of its result, and the
    watch's path is a prefix of it unless the name starts with "/", in
    which case the result is the name alone. *)
Theorem path_join_shape (a b : pystr) :
  b `suffix_of` path_join a b
  /\ (startswith_sep b = false -> a `prefix_of` path_join a b)
  /\ (startswith_sep b = true -> path_join a b = b).
Proof.
  unfold path_join. destruct (startswith_sep b).
  - split; [reflexivity|]. split; [discriminate | reflexivity].
  - split; [|split; [intros _ | discriminate]].
    + destruct (match a with [] => true | _ => endswith_sep a end).
      * now exists a.
      * exists (a ++ [sep]). now rewrite <- app_assoc.
    + destruct (match a with [] => true | _ => endswith_sep a end);
        eexists; reflexivity.
Qed.

(** ** UTF-8: encoding and decoding are inverse *)

Ltac nlia := zify; Z.to_euclidean_division_equations; lia.

Lemma to_N_byte_of_N (n : N) :
  (n < 256)%N -> Byte.to_N (byte_of_N n) = n.
Proof.
  intros Hn. unfold byte_of_N. destruct (Byte.of_N n) as [b|] eqn:Hb.
  - now apply Byte.to_of_N.
  - apply Byte.of_N_None_iff in Hb. lia.
Qed.

Lemma byte_of_to_N (b : byte) : byte_of_N (Byte.to_N b) = b.
Proof. unfold byte_of_N. now rewrite Byte.of_to_N. Qed.

Lemma test_below (x y : N) : (y <= x)%N -> (x <? y)%N = false.
Proof. apply N.ltb_ge. Qed.

Lemma test_under (x y : N) : (x < y)%N -> (x <? y)%N = true.
Proof. apply N.ltb_lt. Qed.

Lemma test_within (lo hi x : N) :
  (lo <= x)%N -> (x <= hi)%N -> ((lo <=? x) && (x <=? hi))%N = true.
Proof.
  intros Hlo Hhi. apply andb_true_intro. split; now apply N.leb_le.
Qed.

Lemma test_above (lo hi x : N) :
  (hi < x)%N -> ((lo <=? x) && (x <=? hi))%N = false.
Proof.
  intros Hhi. apply andb_false_intro2. apply N.leb_gt. exact Hhi.
Qed.

Lemma test_beneath (lo hi x : N) :
  (x < lo)%N -> ((lo <=? x) && (x <=? hi))%N = false.
Proof.
  intros Hlo. apply andb_false_intro1. apply N.leb_gt. exact Hlo.
Qed.

Lemma test_outside (lo hi x : N) :
  (x < lo \/ hi < x)%N -> ((lo <=? x) && (x <=? hi))%N = false.
Proof. intros [H|H]; [now apply test_beneath | now apply test_above]. Qed.

Lemma cont_byte_of_N (lo hi n : N) :
  (lo <= n)%N -> (n <= hi)%N -> (hi < 256)%N ->
  cont lo hi (byte_of_N n) = Some (n - 128)%N.
Proof.
  intros Hlo Hhi H256. unfold cont.
  rewrite to_N_byte_of_N by lia. now rewrite test_within.
Qed.

Lemma cont_Some (lo hi : N) (b : byte) (c : N) :
  cont lo hi b = Some c ->
  (lo <= Byte.to_N b)%N /\ (Byte.to_N b <= hi)%N
  /\ c = (Byte.to_N b - 128)%N.
Proof.
  unfold cont.
  destruct ((lo <=? Byte.to_N b) && (Byte.to_N b <=? hi))%N eqn:H;
    [|discriminate].
  apply andb_prop in H as [H1 H2].
  apply N.leb_le in H1. apply N.leb_le in H2.
  intros [= <-]. easy.
Qed.

(** The bytes of one code point decode to that code point. *)
Lemma utf8_decode_point (c : N) (bs rest : list byte) :
  encode_point c = Some bs ->
  utf8_decode (bs ++ rest) =
    match utf8_decode rest with Some s => Some (c :: s) | None => None end.
Proof.
  unfold encode_point.
  destruct (c <? 128)%N eqn:H1.
  { apply N.ltb_lt in H1. intros [= <-]. cbn [app utf8_decode].
    rewrite to_N_byte_of_N by lia. now rewrite test_under. }
  apply N.ltb_ge in H1.
  destruct (c <? 2048)%N eqn:H2.
  { apply N.ltb_lt in H2. intros [= <-]. cbn [app utf8_decode].
    rewrite to_N_byte_of_N by nlia.
    rewrite test_below by nlia. rewrite test_within by nlia.
    rewrite cont_byte_of_N by nlia.
    destruct (utf8_decode rest); [|reflexivity]. do 2 f_equal. nlia. }
  apply N.ltb_ge in H2.
  destruct (is_surrogate c) eqn:H3; [discriminate|].
  assert (Hs : (c < 55296 \/ 57343 < c)%N).
  { unfold is_surrogate in H3. apply andb_false_elim in H3 as [H|H];
      apply N.leb_gt in H; lia. }
  destruct (c <? 65536)%N eqn:H4.
  { apply N.ltb_lt in H4. intros [= <-]. cbn [app utf8_decode].
    rewrite to_N_byte_of_N by nlia.
    rewrite test_below by nlia. rewrite test_above by nlia.
    rewrite test_within by nlia.
    assert (Hc2 : cont (if (224 + c / 4096 =? 224)%N then 160%N else 128%N)
                    (if (224 + c / 4096 =? 237)%N then 159%N else 191%N)
                    (byte_of_N (128 + (c / 64) mod 64))
                  = Some (128 + (c / 64) mod 64 - 128)%N).
    { destruct (224 + c / 4096 =? 224)%N eqn:E1;
        [apply N.eqb_eq in E1 | apply N.eqb_neq in E1];
        (destruct (224 + c / 4096 =? 237)%N eqn:E2;
         [apply N.eqb_eq in E2 | apply N.eqb_neq in E2]);
        apply cont_byte_of_N; nlia. }
    rewrite Hc2. rewrite cont_byte_of_N by nlia.
    destruct (utf8_decode rest); [|reflexivity]. do 2 f_equal. nlia. }
  apply N.ltb_ge in H4.
  destruct (c <? 1114112)%N eqn:H5; [|discriminate].
  apply N.ltb_lt in H5. intros [= <-]. cbn [app utf8_decode].
  rewrite to_N_byte_of_N by nlia.
  rewrite test_below by nlia. rewrite test_above by nlia.
  rewrite test_above by nlia. rewrite test_within by nlia.
  assert (Hc2 : cont (if (240 + c / 262144 =? 240)%N then 144%N else 128%N)
                  (if (240 + c / 262144 =? 244)%N then 143%N else 191%N)
                  (byte_of_N (128 + (c / 4096) mod 64))
                = Some (128 + (c / 4096) mod 64 - 128)%N).
  { destruct (240 + c / 262144 =? 240)%N eqn:E1;
      [apply N.eqb_eq in E1 | apply N.eqb_neq in E1];
      (destruct (240 + c / 262144 =? 244)%N eqn:E2;
       [apply N.eqb_eq in E2 | apply N.eqb_neq in E2]);
      apply cont_byte_of_N; nlia. }
  rewrite Hc2. rewrite !cont_byte_of_N by nlia.
  destruct (utf8_decode rest); [|reflexivity]. do 2 f_equal. nlia.
Qed.

(** X17: what [encode('utf-8')] produces, [decode('utf-8')] reads
    back: when a path encodes to the bytes given to the kernel, those
    bytes decode to the path. *)
Theorem utf8_decode_encode (s : pystr) (bs : list byte) :
  utf8_encode s = Some bs -> utf8_decode bs = Some s.
Proof.
  revert bs. induction s as [|c s IH]; intros bs.
  - intros [= <-]. reflexivity.
  - simpl. destruct (encode_point c) as [b|] eqn:Hc; [|discriminate].
    destruct (utf8_encode s) as [bs'|]; [|discriminate].
    intros [= <-]. rewrite (utf8_decode_point c b bs' Hc).
    now rewrite (IH bs' eq_refl).
Qed.

Lemma utf8_decode_encode_witness :
  utf8_decode [xc3; xa9; xe2; x82; xac; xf0; x9f; x98; x80]
  = Some [233; 8364; 128512]%N.
Proof.
  apply (utf8_decode_encode [233; 8364; 128512]%N). vm_compute; reflexivity.
Defined.

Lemma encode_point_2 (n1 n2 : N) :
  (194 <= n1)%N -> (n1 <= 223)%N -> (128 <= n2)%N -> (n2 <= 191)%N ->
  encode_point ((n1 - 192) * 64 + (n2 - 128))%N
  = Some [byte_of_N n1; byte_of_N n2].
Proof.
  intros. unfold encode_point.
  rewrite test_below by nlia. rewrite test_under by nlia.
  do 2 f_equal; [|f_equal]; f_equal; nlia.
Qed.

Lemma encode_point_3 (n1 n2 n3 : N) :
  (224 <= n1)%N -> (n1 <= 239)%N ->
  ((if (n1 =? 224)%N then 160 else 128) <= n2)%N ->
  (n2 <= (if (n1 =? 237)%N then 159 else 191))%N ->
  (128 <= n3)%N -> (n3 <= 191)%N ->
  encode_point ((n1 - 224) * 4096 + (n2 - 128) * 64 + (n3 - 128))%N
  = Some [byte_of_N n1; byte_of_N n2; byte_of_N n3].
Proof.
  intros H1 H2 Hlo Hhi H3 H4.
  destruct (n1 =? 224)%N eqn:E1;
    [apply N.eqb_eq in E1 | apply N.eqb_neq in E1];
    (destruct (n1 =? 237)%N eqn:E2;
     [apply N.eqb_eq in E2 | apply N.eqb_neq in E2]);
    first
      [ exfalso; lia
      | unfold encode_point, is_surrogate;
        rewrite test_below by nlia; rewrite test_below by nlia;
        rewrite test_outside by nlia;
        rewrite test_under by nlia;
        (do 2 f_equal; [|f_equal; [|f_equal]]; f_equal; nlia) ].
Qed.

Lemma encode_point_4 (n1 n2 n3 n4 : N) :
  (240 <= n1)%N -> (n1 <= 244)%N ->
  ((if (n1 =? 240)%N then 144 else 128) <= n2)%N ->
  (n2 <= (if (n1 =? 244)%N then 143 else 191))%N ->
  (128 <= n3)%N -> (n3 <= 191)%N -> (128 <= n4)%N -> (n4 <= 191)%N ->
  encode_point ((n1 - 240) * 262144 + (n2 - 128) * 4096
                + (n3 - 128) * 64 + (n4 - 128))%N
  = Some [byte_of_N n1; byte_of_N n2; byte_of_N n3; byte_of_N n4].
Proof.
  intros H1 H2 Hlo Hhi H3 H4 H5 H6.
  destruct (n1 =? 240)%N eqn:E1;
    [apply N.eqb_eq in E1 | apply N.eqb_neq in E1];
    (destruct (n1 =? 244)%N eqn:E2;
     [apply N.eqb_eq in E2 | apply N.eqb_neq in E2]);
    first
      [ exfalso; lia
      | unfold encode_point, is_surrogate;
        rewrite test_below by nlia; rewrite test_below by nlia;
        rewrite test_above by nlia;
        rewrite test_below by nlia; rewrite test_under by nlia;
        (do 2 f_equal; [|f_equal; [|f_equal; [|f_equal]]]; f_equal; nlia) ].
Qed.

Lemma utf8_encode_decode_bounded (n : nat) :
  forall (bs : list byte) (s : pystr),
    (List.length bs <= n)%nat ->
    utf8_decode bs = Some s -> utf8_encode s = Some bs.
Proof.
  induction n as [|n IH]; intros bs s Hn Hd.
  - destruct bs; [|simpl in Hn; lia]. simpl in Hd. now injection Hd as <-.
  - destruct bs as [|b1 t1]; [simpl in Hd; now injection Hd as <-|].
    simpl in Hn. cbn [utf8_decode] in Hd.
    destruct (Byte.to_N b1 <? 128)%N eqn:H1.
    { apply N.ltb_lt in H1.
      destruct (utf8_decode t1) as [s1|] eqn:Ht; [|discriminate].
      injection Hd as <-. cbn [utf8_encode].
      rewrite (IH t1 s1) by (lia || assumption).
      unfold encode_point. rewrite test_under by lia.
      now rewrite byte_of_to_N. }
    destruct ((194 <=? Byte.to_N b1) && (Byte.to_N b1 <=? 223))%N eqn:H2.
    { apply andb_prop in H2 as [H2 H2']. apply N.leb_le in H2, H2'.
      destruct t1 as [|b2 t2]; [discriminate|]. simpl in Hn.
      destruct (cont 128 191 b2) as [c2|] eqn:Hc2; [|discriminate].
      destruct (utf8_decode t2) as [s2|] eqn:Ht; [|discriminate].
      injection Hd as <-. apply cont_Some in Hc2 as (L2 & U2 & ->).
      cbn [utf8_encode]. rewrite (IH t2 s2) by (lia || assumption).
      rewrite encode_point_2 by assumption.
      now rewrite !byte_of_to_N. }
    destruct ((224 <=? Byte.to_N b1) && (Byte.to_N b1 <=? 239))%N eqn:H3.
    { apply andb_prop in H3 as [H3 H3']. apply N.leb_le in H3, H3'.
      destruct t1 as [|b2 [|b3 t3]]; try discriminate. simpl in Hn.
      destruct (cont _ _ b2) as [c2|] eqn:Hc2; [|discriminate].
      destruct (cont 128 191 b3) as [c3|] eqn:Hc3; [|discriminate].
      destruct (utf8_decode t3) as [s3|] eqn:Ht; [|discriminate].
      injection Hd as <-. apply cont_Some in Hc2 as (L2 & U2 & ->).
      apply cont_Some in Hc3 as (L3 & U3 & ->).
      cbn [utf8_encode]. rewrite (IH t3 s3) by (lia || assumption).
      rewrite encode_point_3 by assumption.
      now rewrite !byte_of_to_N. }
    destruct ((240 <=? Byte.to_N b1) && (Byte.to_N b1 <=? 244))%N eqn:H4;
      [|discriminate].
    apply andb_prop in H4 as [H4 H4']. apply N.leb_le in H4, H4'.
    destruct t1 as [|b2 [|b3 [|b4 t4]]]; try discriminate. simpl in Hn.
    destruct (cont _ _ b2) as [c2|] eqn:Hc2; [|discriminate].
    destruct (cont 128 191 b3) as [c3|] eqn:Hc3; [|discriminate].
    destruct (cont 128 191 b4) as [c4|] eqn:Hc4; [|discriminate].
    destruct (utf8_decode t4) as [s4|] eqn:Ht; [|discriminate].
    injection Hd as <-. apply cont_Some in Hc2 as (L2 & U2 & ->).
    apply cont_Some in Hc3 as (L3 & U3 & ->).
    apply cont_Some in Hc4 as (L4 & U4 & ->).
    cbn [utf8_encode]. rewrite (IH t4 s4) by (lia || assumption).
    rewrite encode_point_4 by assumption.
    now rewrite !byte_of_to_N.
Qed.

(** X18: [decode('utf-8')] accepts canonical encodings only: a name
    that decodes is the very byte string its text encodes to, so two
    different byte strings never decode to the same name. *)
Theorem utf8_encode_decode (bs : list byte) (s : pystr) :
  utf8_decode bs = Some s -> utf8_encode s = Some bs.
Proof. apply (utf8_encode_decode_bounded (List.length bs)). lia. Qed.

Lemma utf8_encode_decode_witness :
  utf8_encode (py "/tmp/srp") = Some (pybytes "/tmp/srp").
Proof.
  apply (utf8_encode_decode (pybytes "/tmp/srp")). vm_compute; reflexivity.
Defined.

(** ** Record boundaries *)

(** X20: a complete record is consumed exactly, whether readEvent
    returns or raises: when the stream starts with a header followed by
    as many bytes as the header declares, the stream left is what
    follows, so that the next call starts at the next record. *)
Theorem readEvent_consumes_record (self : Notify)
    (hdr payload rest : list byte) (ready_in : option N)
    (timeout : pytimeout) :
  List.length hdr = header_size ->
  filebuf self = hdr ++ payload ++ rest ->
  Z.of_nat (List.length payload) = Event.length (unpack hdr) ->
  select ready_in timeout = Returns true ->
  (readEvent self ready_in timeout).2 = set_filebuf self rest.
Proof.
  intros Hhdr Hbuf Hlen Hsel.
  destruct (Z_lt_le_dec 0 (Event.length (unpack hdr))) as [Hpos|Hz].
  - rewrite (readEvent_with_name self hdr _ ready_in timeout
               Hhdr Hbuf Hsel Hpos). cbn [snd].
    rewrite <- Hlen, Nat2Z.id. now rewrite drop_app_length.
  - rewrite (readEvent_without_name self hdr _ ready_in timeout
               Hhdr Hbuf Hsel Hz). cbn [snd].
    assert (Hnil : payload = []) by (apply length_zero_iff_nil; lia).
    now rewrite Hnil.
Qed.

Lemma readEvent_consumes_record_witness :
  (readEvent (session1 (hdr_7_len8 ++ foo_padded ++ hdr_7_len0))
             (Some 0%N) (TSecs 0)).1 = Raises (KeyError 7)
  /\ (readEvent (session1 (hdr_7_len8 ++ foo_padded ++ hdr_7_len0))
                (Some 0%N) (TSecs 0)).2
     = set_filebuf (session1 (hdr_7_len8 ++ foo_padded ++ hdr_7_len0))
                   hdr_7_len0.
Proof.
  split; [vm_compute; reflexivity|].
  apply (readEvent_consumes_record
           (session1 (hdr_7_len8 ++ foo_padded ++ hdr_7_len0))
           hdr_7_len8 foo_padded hdr_7_len0 (Some 0%N) (TSecs 0)).
  - reflexivity.
  - reflexivity.
  - vm_compute; reflexivity.
  - reflexivity.
Defined.
